(** * libuwp.h: the UWP binding header of Ikemen GO

    [src/libuwp.h] is a declaration header: one include directive and
    seven imported function prototypes.  The development keeps the header
    as the text it is, reads it the way a C front end does (lines, tokens,
    one item per line) and states every property on what that reading
    yields. *)

From Stdlib Require Import Strings.String Strings.Ascii Lists.List Bool.Bool.
From Stdlib Require Import Arith.PeanoNat Lia.
Import ListNotations.
Open Scope string_scope.

(** ** The source text *)

Module Source.

(** The header, byte for byte: eight lines separated by line feeds, the
    last one without a terminating line feed. *)
Definition libuwp_h : string :=
"#include <stdlib.h>
__declspec(dllimport) void uwp_GetBundlePath(char* buffer);
__declspec(dllimport) void uwp_GetBundleFilePath(char* buffer, const char *filename);
__declspec(dllimport) void uwp_GetScreenSize(int* x, int* y);
__declspec(dllimport) void uwp_GetTarget(char* buffer);
__declspec(dllimport) void uwp_LogMessage(char* buffer);
__declspec(dllimport) void uwp_PatchFolder(char* folder);
__declspec(dllimport) void uwp_PickAFolder(char* buffer);".

End Source.

(** ** Lines and tokens *)

Module Lex.

Definition LF : ascii := "010"%char.

Definition is_space (c : ascii) : bool :=
  let n := nat_of_ascii c in
  ((n =? 32) || (n =? 9) || (n =? 10) || (n =? 13))%nat.

(** Letters, digits and the underscore: the characters of a C identifier
    or keyword. *)
Definition is_word_char (c : ascii) : bool :=
  let n := nat_of_ascii c in
  (((65 <=? n) && (n <=? 90)) || ((97 <=? n) && (n <=? 122)) ||
   ((48 <=? n) && (n <=? 57)) || (n =? 95))%nat.

Inductive token : Type :=
| Word (w : string)
| Punct (c : ascii).

Definition token_eqb (a b : token) : bool :=
  match a, b with
  | Word v, Word w => String.eqb v w
  | Punct c, Punct d => Ascii.eqb c d
  | _, _ => false
  end.

Definition is_punct (c : ascii) (t : token) : bool := token_eqb (Punct c) t.
Definition is_word (w : string) (t : token) : bool := token_eqb (Word w) t.

(** The word collected so far, if any, becomes a token. *)
Definition flush (acc : string) : list token :=
  match acc with
  | EmptyString => []
  | _ => [Word acc]
  end.

(** Maximal runs of word characters are words, white space separates, and
    every other character is a punctuator of its own. *)
Fixpoint lex_from (acc : string) (s : string) : list token :=
  match s with
  | EmptyString => flush acc
  | String c rest =>
      if is_word_char c then lex_from (acc ++ String c EmptyString) rest
      else if is_space c then flush acc ++ lex_from EmptyString rest
      else flush acc ++ Punct c :: lex_from EmptyString rest
  end.

Definition lex (s : string) : list token := lex_from EmptyString s.

(** Lines are terminated by a line feed; text after the last line feed is
    a line too, and a final line feed opens no empty line. *)
Fixpoint lines_from (cur : string) (s : string) : list string :=
  match s with
  | EmptyString =>
      match cur with
      | EmptyString => []
      | _ => [cur]
      end
  | String c rest =>
      if Ascii.eqb c LF then cur :: lines_from EmptyString rest
      else lines_from (cur ++ String c EmptyString) rest
  end.

Definition lines (s : string) : list string := lines_from EmptyString s.

Fixpoint count_char (c : ascii) (s : string) : nat :=
  match s with
  | EmptyString => 0
  | String d rest => (if Ascii.eqb d c then 1 else 0) + count_char c rest
  end.

End Lex.

(** ** What a header declares *)

Module Ast.

Import Lex.

(** The three built-in types the header writes; any other type word is
    kept by its name. *)
Inductive base_type : Type :=
| Tvoid
| Tchar
| Tint
| Tnamed (name : string).

(** A possibly const-qualified base type under any number of pointers. *)
Inductive ctype : Type :=
| Base (is_const : bool) (b : base_type)
| Pointer (to : ctype).

Record param : Type := mkParam {
  p_type : ctype;
  p_name : string
}.

(** A function declarator read from one line: the [__declspec] attribute
    when there is one, the return type, the name, the parameters, the
    tokens standing between the closing parenthesis and the end of the
    declarator, and the tokens of the body when a brace opens one. *)
Record decl : Type := mkDecl {
  d_linkage : option string;
  d_ret : ctype;
  d_name : string;
  d_params : list param;
  d_after : list token;
  d_body : option (list token)
}.

Inductive item : Type :=
| Include (header : string)
| Function (d : decl)
| Object (t : ctype) (name : string)
| Other (ts : list token).

Definition base_type_eqb (a b : base_type) : bool :=
  match a, b with
  | Tvoid, Tvoid | Tchar, Tchar | Tint, Tint => true
  | Tnamed m, Tnamed n => String.eqb m n
  | _, _ => false
  end.

Fixpoint ctype_eqb (a b : ctype) : bool :=
  match a, b with
  | Base c x, Base d y => Bool.eqb c d && base_type_eqb x y
  | Pointer x, Pointer y => ctype_eqb x y
  | _, _ => false
  end.

Definition void_t : ctype := Base false Tvoid.
Definition char_ptr : ctype := Pointer (Base false Tchar).
Definition const_char_ptr : ctype := Pointer (Base true Tchar).
Definition int_ptr : ctype := Pointer (Base false Tint).

End Ast.

(** ** Reading the header *)

Module Parse.

Import Lex Ast.

Definition base_of_word (w : string) : base_type :=
  if w =? "void" then Tvoid
  else if w =? "char" then Tchar
  else if w =? "int" then Tint
  else Tnamed w.

(** [#include <name>]: the words, dots and slashes up to the closing
    angle bracket spell the header's name. *)
Fixpoint header_name (ts : list token) : option string :=
  match ts with
  | [] => None
  | Word w :: rest => option_map (String.append w) (header_name rest)
  | Punct c :: rest =>
      if (c =? ">")%char then
        match rest with
        | [] => Some EmptyString
        | _ => None
        end
      else if (c =? ".")%char || (c =? "/")%char then
        option_map (String c) (header_name rest)
      else None
  end.

Definition parse_include (ts : list token) : option string :=
  match ts with
  | Punct h :: Word w :: Punct l :: rest =>
      if (h =? "#")%char && (w =? "include") && (l =? "<")%char
      then header_name rest
      else None
  | _ => None
  end.

(** The optional [__declspec(attribute)] in front of a declaration. *)
Definition parse_linkage (ts : list token) : option string * list token :=
  match ts with
  | Word d :: Punct l :: Word a :: Punct r :: rest =>
      if (d =? "__declspec") && (l =? "(")%char && (r =? ")")%char
      then (Some a, rest)
      else (None, ts)
  | _ => (None, ts)
  end.

Fixpoint parse_stars (t : ctype) (ts : list token) : ctype * list token :=
  match ts with
  | Punct c :: rest =>
      if (c =? "*")%char then parse_stars (Pointer t) rest else (t, ts)
  | _ => (t, ts)
  end.

(** [const T], [T const] or [T], then the stars. *)
Definition parse_type (ts : list token) : option (ctype * list token) :=
  match ts with
  | Word a :: Word b :: rest =>
      if a =? "const" then Some (parse_stars (Base true (base_of_word b)) rest)
      else if b =? "const" then Some (parse_stars (Base true (base_of_word a)) rest)
      else Some (parse_stars (Base false (base_of_word a)) (Word b :: rest))
  | Word a :: rest => Some (parse_stars (Base false (base_of_word a)) rest)
  | _ => None
  end.

(** The tokens up to the first closing parenthesis and those after it; a
    nested opening parenthesis is not a parameter list of this shape. *)
Fixpoint until_close (ts : list token) : option (list token * list token) :=
  match ts with
  | [] => None
  | Punct c :: rest =>
      if (c =? ")")%char then Some ([], rest)
      else if (c =? "(")%char then None
      else option_map (fun r => (Punct c :: fst r, snd r)) (until_close rest)
  | t :: rest => option_map (fun r => (t :: fst r, snd r)) (until_close rest)
  end.

Fixpoint split_commas (cur : list token) (ts : list token) : list (list token) :=
  match ts with
  | [] => [rev cur]
  | Punct c :: rest =>
      if (c =? ",")%char then rev cur :: split_commas [] rest
      else split_commas (Punct c :: cur) rest
  | t :: rest => split_commas (t :: cur) rest
  end.

Definition parse_param (ts : list token) : option param :=
  match parse_type ts with
  | Some (t, [Word n]) => Some (mkParam t n)
  | _ => None
  end.

Fixpoint parse_each (groups : list (list token)) : option (list param) :=
  match groups with
  | [] => Some []
  | g :: rest =>
      match parse_param g, parse_each rest with
      | Some p, Some ps => Some (p :: ps)
      | _, _ => None
      end
  end.

(** An empty list and the single word [void] both declare no parameter. *)
Definition parse_params (ts : list token) : option (list param) :=
  match ts with
  | [] => Some []
  | [Word w] => if w =? "void" then Some [] else None
  | _ => parse_each (split_commas [] ts)
  end.

(** What follows the parameter list: tokens up to a semicolon that ends
    the line (a prototype), or up to a brace that opens a body. *)
Fixpoint parse_end (ts : list token) : option (list token * option (list token)) :=
  match ts with
  | [] => None
  | Punct c :: rest =>
      if (c =? ";")%char then
        match rest with
        | [] => Some ([], None)
        | _ => None
        end
      else if (c =? "{")%char then Some ([], Some rest)
      else option_map (fun r => (Punct c :: fst r, snd r)) (parse_end rest)
  | t :: rest => option_map (fun r => (t :: fst r, snd r)) (parse_end rest)
  end.

Definition parse_function (ts : list token) : option decl :=
  let (linkage, ts1) := parse_linkage ts in
  match parse_type ts1 with
  | Some (ret, Word name :: Punct l :: ts2) =>
      if (l =? "(")%char then
        match until_close ts2 with
        | Some (ptoks, ts3) =>
            match parse_params ptoks, parse_end ts3 with
            | Some ps, Some (after, body) =>
                Some (mkDecl linkage ret name ps after body)
            | _, _ => None
            end
        | None => None
        end
      else None
  | _ => None
  end.

(** A data object: an optional attribute, an optional [extern], a type,
    a name and the semicolon. *)
Definition parse_object (ts : list token) : option (ctype * string) :=
  let ts1 := snd (parse_linkage ts) in
  let ts2 := match ts1 with
             | Word e :: rest => if e =? "extern" then rest else ts1
             | _ => ts1
             end in
  match parse_type ts2 with
  | Some (t, [Word n; Punct c]) =>
      if (c =? ";")%char then Some (t, n) else None
  | _ => None
  end.

Definition parse_line (l : string) : item :=
  let ts := lex l in
  match parse_include ts with
  | Some h => Include h
  | None =>
      match parse_function ts with
      | Some d => Function d
      | None =>
          match parse_object ts with
          | Some (t, n) => Object t n
          | None => Other ts
          end
      end
  end.

Definition parse_header (src : string) : list item :=
  map parse_line (lines src).

End Parse.

(** ** Questions asked of a parsed header *)

Module Header.

Import Lex Ast Parse.

Fixpoint functions (h : list item) : list decl :=
  match h with
  | [] => []
  | Function d :: rest => d :: functions rest
  | _ :: rest => functions rest
  end.

Fixpoint includes (h : list item) : list string :=
  match h with
  | [] => []
  | Include n :: rest => n :: includes rest
  | _ :: rest => includes rest
  end.

(** The data objects a header declares, by name. *)
Fixpoint objects (h : list item) : list string :=
  match h with
  | [] => []
  | Object _ n :: rest => n :: objects rest
  | _ :: rest => objects rest
  end.

(** The lines that are neither an include, a function nor an object. *)
Fixpoint others (h : list item) : list (list token) :=
  match h with
  | [] => []
  | Other ts :: rest => ts :: others rest
  | _ :: rest => others rest
  end.

Definition symbol_of (it : item) : list string :=
  match it with
  | Function d => [d_name d]
  | Object _ n => [n]
  | Include _ | Other _ => []
  end.

(** Every name the header declares, in the order of the text. *)
Definition declared_symbols (h : list item) : list string :=
  flat_map symbol_of h.

Definition is_function (it : item) : bool :=
  match it with
  | Function _ => true
  | _ => false
  end.

Definition all_params (h : list item) : list param :=
  flat_map d_params (functions h).

Definition by_value (t : ctype) : bool :=
  match t with
  | Base _ _ => true
  | Pointer _ => false
  end.

(** A [const] anywhere in the type. *)
Fixpoint const_qualified (t : ctype) : bool :=
  match t with
  | Base c _ => c
  | Pointer to => const_qualified to
  end.

Definition is_int_pointer (t : ctype) : bool :=
  match t with
  | Pointer (Base _ Tint) => true
  | _ => false
  end.

Fixpoint base_of (t : ctype) : base_type :=
  match t with
  | Base _ b => b
  | Pointer to => base_of to
  end.

Definition built_in (b : base_type) : bool :=
  match b with
  | Tnamed _ => false
  | Tvoid | Tchar | Tint => true
  end.

(** The direction a parameter's type declares: what is passed by value or
    behind a pointer to const can only be read by the callee; a pointer to
    mutable data lets the callee write a result. *)
Inductive direction : Type :=
| Input
| Output.

Definition declared_direction (t : ctype) : direction :=
  match t with
  | Base _ _ => Input
  | Pointer to => if const_qualified to then Input else Output
  end.

Definition is_input (t : ctype) : bool :=
  match declared_direction t with
  | Input => true
  | Output => false
  end.

(** Some parameter is an input and some parameter is an output. *)
Definition mixed_directions (d : decl) : bool :=
  existsb (fun p => is_input (p_type p)) (d_params d) &&
  existsb (fun p => negb (is_input (p_type p))) (d_params d).

Fixpoint words (ts : list token) : list string :=
  match ts with
  | [] => []
  | Word w :: rest => w :: words rest
  | Punct _ :: rest => words rest
  end.

Definition mem (w : string) (l : list string) : bool :=
  existsb (String.eqb w) l.

(** The words written on the lines that declare functions. *)
Definition declaration_words (src : string) : list string :=
  flat_map (fun l => words (lex l))
           (filter (fun l => is_function (parse_line l)) (lines src)).

(** The keywords of control flow and of data structure definitions. *)
Definition logic_keywords : list string :=
  ["if"; "else"; "for"; "while"; "do"; "switch"; "case"; "default";
   "goto"; "return"; "break"; "continue";
   "struct"; "union"; "enum"; "typedef"].

(** The names ISO C (C11, 7.22) has [<stdlib.h>] provide: its types, its
    macros and its functions.  The file itself belongs to the C library,
    not to the repository. *)
Definition stdlib_h_names : list string :=
  ["size_t"; "wchar_t"; "div_t"; "ldiv_t"; "lldiv_t";
   "NULL"; "EXIT_FAILURE"; "EXIT_SUCCESS"; "RAND_MAX"; "MB_CUR_MAX";
   "atof"; "atoi"; "atol"; "atoll";
   "strtod"; "strtof"; "strtold"; "strtol"; "strtoll"; "strtoul"; "strtoull";
   "rand"; "srand";
   "aligned_alloc"; "calloc"; "free"; "malloc"; "realloc";
   "abort"; "atexit"; "at_quick_exit"; "exit"; "_Exit"; "getenv";
   "quick_exit"; "system";
   "bsearch"; "qsort";
   "abs"; "labs"; "llabs"; "div"; "ldiv"; "lldiv";
   "mblen"; "mbtowc"; "wctomb"; "mbstowcs"; "wcstombs"].

End Header.

(** ** The header of the repository, read *)

Module Libuwp.

Import Source Lex Ast Parse Header.

Definition libuwp : list item := parse_header libuwp_h.

(** A prototype of the shape all seven have: imported from a DLL,
    returning nothing, ended by its semicolon. *)
Definition imported (name : string) (ps : list param) : decl :=
  mkDecl (Some "dllimport") void_t name ps [] None.

Definition GetBundlePath : decl :=
  imported "uwp_GetBundlePath" [mkParam char_ptr "buffer"].
Definition GetBundleFilePath : decl :=
  imported "uwp_GetBundleFilePath"
           [mkParam char_ptr "buffer"; mkParam const_char_ptr "filename"].
Definition GetScreenSize : decl :=
  imported "uwp_GetScreenSize" [mkParam int_ptr "x"; mkParam int_ptr "y"].
Definition GetTarget : decl :=
  imported "uwp_GetTarget" [mkParam char_ptr "buffer"].
Definition LogMessage : decl :=
  imported "uwp_LogMessage" [mkParam char_ptr "buffer"].
Definition PatchFolder : decl :=
  imported "uwp_PatchFolder" [mkParam char_ptr "folder"].
Definition PickAFolder : decl :=
  imported "uwp_PickAFolder" [mkParam char_ptr "buffer"].

Definition prototypes : list decl :=
  [GetBundlePath; GetBundleFilePath; GetScreenSize; GetTarget;
   LogMessage; PatchFolder; PickAFolder].

(** The names of the seven entry points, as the header spells them. *)
Definition entry_points : list string :=
  ["uwp_GetBundlePath"; "uwp_GetBundleFilePath"; "uwp_GetScreenSize";
   "uwp_GetTarget"; "uwp_LogMessage"; "uwp_PatchFolder"; "uwp_PickAFolder"].

(** The Symbol column of the specification's table of entry points, row
    by row (this list follows the specification, not the header). *)
Definition spec_symbol_table : list string :=
  ["GetBundlePath"; "GetBundleFilePath"; "GetScreenSize"; "GetTarget";
   "LogMessage"; "PatchFolder"; "PickAFolder"].

End Libuwp.

(** ** The text as a translation unit sees it *)

Module Shape.

Import Lex Ast Parse Header.

(** The text that [n] inclusions of a header in a row bring in: the
    preprocessor ends the last line of each copy. *)
Fixpoint include_times (n : nat) (h : string) : string :=
  match n with
  | 0 => EmptyString
  | S m => h ++ String LF (include_times m h)
  end.

(** The text has a last character and it is not a line feed. *)
Fixpoint unterminated (s : string) : bool :=
  match s with
  | EmptyString => false
  | String c EmptyString => negb (Ascii.eqb c LF)
  | String _ rest => unterminated rest
  end.

(** A printable ASCII character (space to tilde) or a line feed. *)
Definition plain_char (c : ascii) : bool :=
  let n := nat_of_ascii c in
  (((32 <=? n) && (n <=? 126)) || (n =? 10))%nat.

Definition is_digit (c : ascii) : bool :=
  let n := nat_of_ascii c in
  ((48 <=? n) && (n <=? 57))%nat.

(** A C identifier: word characters only, the first one not a digit. *)
Definition is_identifier (w : string) : bool :=
  match w with
  | EmptyString => false
  | String c _ =>
      negb (is_digit c) && forallb is_word_char (list_ascii_of_string w)
  end.

(** The keywords of ISO C (C11, 6.4.1), which no declaration may use as a
    name. *)
Definition c_keywords : list string :=
  ["auto"; "break"; "case"; "char"; "const"; "continue"; "default"; "do";
   "double"; "else"; "enum"; "extern"; "float"; "for"; "goto"; "if";
   "inline"; "int"; "long"; "register"; "restrict"; "return"; "short";
   "signed"; "sizeof"; "static"; "struct"; "switch"; "typedef"; "union";
   "unsigned"; "void"; "volatile"; "while";
   "_Alignas"; "_Alignof"; "_Atomic"; "_Bool"; "_Complex"; "_Generic";
   "_Imaginary"; "_Noreturn"; "_Static_assert"; "_Thread_local"].

(** The declaration has a parameter whose data are characters. *)
Definition has_char_buffer (d : decl) : bool :=
  existsb (fun p => base_type_eqb (base_of (p_type p)) Tchar) (d_params d).

End Shape.

(** ** Facts about the reader *)

Module ReaderFacts.

Import Lex Ast Parse Header.

Lemma count_char_app (c : ascii) (s t : string) :
  count_char c (s ++ t) = count_char c s + count_char c t.
Proof.
  induction s as [| d s IH]; simpl.
  - reflexivity.
  - rewrite IH. apply Nat.add_assoc.
Qed.

(** A text has at most one line more than it has line feeds. *)
Lemma lines_from_length (s cur : string) :
  length (lines_from cur s) <= S (count_char LF s).
Proof.
  revert cur. induction s as [| c s IH]; intros cur; simpl.
  - destruct cur; simpl; lia.
  - destruct (Ascii.eqb c LF); simpl.
    + specialize (IH EmptyString). lia.
    + apply IH.
Qed.

(** No line holds a line feed. *)
Lemma lines_from_no_LF (s cur : string) :
  count_char LF cur = 0 ->
  Forall (fun l => count_char LF l = 0) (lines_from cur s).
Proof.
  revert cur. induction s as [| c s IH]; intros cur Hcur; simpl.
  - destruct cur; constructor; auto.
  - destruct (Ascii.eqb c LF) eqn:E.
    + constructor; [exact Hcur | apply IH; reflexivity].
    + apply IH. rewrite count_char_app, Hcur. simpl. rewrite E. reflexivity.
Qed.

Lemma parse_header_length (src : string) :
  length (parse_header src) = length (lines src).
Proof. unfold parse_header. apply length_map. Qed.

(** A declarator that [parse_end] closes as a prototype has no opening
    brace after its parameter list. *)
Lemma parse_end_prototype (ts after : list token) :
  parse_end ts = Some (after, None) ->
  existsb (is_punct "{") ts = false.
Proof.
  revert after. induction ts as [| t ts IH]; intros after H.
  - reflexivity.
  - destruct t as [w | c].
    + simpl in H. destruct (parse_end ts) as [[a b] |] eqn:E; simpl in H;
        [| discriminate].
      injection H as _ Hb. subst b. simpl. apply (IH a). reflexivity.
    + change (existsb (is_punct "{") (Punct c :: ts))
        with (Ascii.eqb "{" c || existsb (is_punct "{") ts).
      rewrite (Ascii.eqb_sym "{" c).
      cbn [parse_end] in H.
      destruct (Ascii.eqb c ";") eqn:Es.
      * apply Ascii.eqb_eq in Es. subst c.
        destruct ts; [reflexivity | discriminate].
      * destruct (Ascii.eqb c "{") eqn:Eb; [discriminate |].
        destruct (parse_end ts) as [[a b] |] eqn:E; simpl in H; [| discriminate].
        injection H as _ Hb. subst b. simpl. apply (IH a). reflexivity.
Qed.

Lemma in_functions (h : list item) (d : decl) :
  In d (functions h) <-> In (Function d) h.
Proof.
  induction h as [| it h IH]; simpl.
  - tauto.
  - destruct it; simpl; rewrite IH; split; intros H;
      try (right; exact H);
      try (destruct H as [H | H]; [discriminate H | exact H]).
    + destruct H as [H | H]; [left; f_equal; exact H | right; exact H].
    + destruct H as [H | H]; [left; injection H as H; exact H | right; exact H].
Qed.

(** A declared symbol is the name of a function or of an object. *)
Lemma in_declared_symbols (h : list item) (s : string) :
  In s (declared_symbols h) <->
  (exists d, In (Function d) h /\ d_name d = s) \/
  (exists t, In (Object t s) h).
Proof.
  unfold declared_symbols. rewrite in_flat_map. split.
  - intros [it [Hit Hs]]. destruct it as [n | d | t n | ts]; simpl in Hs;
      try contradiction.
    + destruct Hs as [Hs | []]. left. exists d. split; assumption.
    + destruct Hs as [Hs | []]. subst n. right. exists t. assumption.
  - intros [[d [Hd Hn]] | [t Ht]].
    + exists (Function d). split; [assumption | simpl; left; assumption].
    + exists (Object t s). split; [assumption | simpl; left; reflexivity].
Qed.

Lemma base_type_eqb_eq (a b : base_type) :
  base_type_eqb a b = true <-> a = b.
Proof.
  destruct a, b; simpl; split; intros H;
    try reflexivity; try discriminate H.
  - apply String.eqb_eq in H. subst. reflexivity.
  - injection H as H. apply String.eqb_eq. exact H.
Qed.

Lemma ctype_eqb_eq (a b : ctype) :
  ctype_eqb a b = true <-> a = b.
Proof.
  revert b. induction a as [c x | a IH]; intros [d y | b]; simpl;
    split; intros H; try discriminate H.
  - apply andb_true_iff in H as [Hc Hb].
    apply Bool.eqb_prop in Hc. apply base_type_eqb_eq in Hb. subst. reflexivity.
  - injection H as Hc Hb. subst. rewrite Bool.eqb_reflx. simpl.
    apply base_type_eqb_eq. reflexivity.
  - f_equal. apply IH. exact H.
  - injection H as H. apply IH. exact H.
Qed.

Lemma mem_In (w : string) (l : list string) :
  mem w l = true <-> In w l.
Proof.
  unfold mem. rewrite existsb_exists. split.
  - intros [x [Hx E]]. apply String.eqb_eq in E. subst. exact Hx.
  - intros H. exists w. split; [exact H | apply String.eqb_refl].
Qed.

(** A type passed by value or behind a pointer to const is an input. *)
Lemma output_is_mutable_pointer (t : ctype) :
  declared_direction t = Output ->
  exists to, t = Pointer to /\ const_qualified to = false.
Proof.
  destruct t as [c b | to]; simpl; intros H.
  - discriminate.
  - exists to. destruct (const_qualified to); [discriminate | auto].
Qed.

End ReaderFacts.

(** ** What the header of the repository declares *)

Module LibuwpFacts.

Import Source Lex Ast Parse Header Libuwp ReaderFacts.

(** The header has 456 bytes, seven of them line feeds. *)
Lemma libuwp_h_size :
  String.length libuwp_h = 456 /\ count_char LF libuwp_h = 7.
Proof. split; vm_compute; reflexivity. Qed.

(** Reading the text yields the include and the seven prototypes. *)
Lemma libuwp_reading :
  libuwp = Include "stdlib.h" :: map Function prototypes.
Proof. vm_compute. reflexivity. Qed.

Lemma libuwp_functions : functions libuwp = prototypes.
Proof. rewrite libuwp_reading. reflexivity. Qed.

Lemma libuwp_symbols : declared_symbols libuwp = entry_points.
Proof. rewrite libuwp_reading. reflexivity. Qed.

Lemma libuwp_objects : objects libuwp = [] /\ others libuwp = [].
Proof. rewrite libuwp_reading. split; reflexivity. Qed.

(** Case analysis on a declaration of the header. *)
Lemma prototype_cases (d : decl) :
  In d (functions libuwp) ->
  d = GetBundlePath \/ d = GetBundleFilePath \/ d = GetScreenSize \/
  d = GetTarget \/ d = LogMessage \/ d = PatchFolder \/ d = PickAFolder.
Proof.
  rewrite libuwp_functions. unfold prototypes. simpl.
  intuition (subst; auto).
Qed.

End LibuwpFacts.

(** ** The interface of libuwp.h *)

Module Interface.

Import Source Lex Ast Parse Header Libuwp ReaderFacts LibuwpFacts.

(** A property checked by a boolean test holds of every element. *)
Lemma Forall_by_test {A : Type} (P : A -> Prop) (f : A -> bool) (l : list A) :
  (forall x, f x = true -> P x) -> forallb f l = true -> Forall P l.
Proof.
  intros Hf Hl. apply Forall_forall. intros x Hx.
  apply Hf. rewrite forallb_forall in Hl. apply Hl. exact Hx.
Qed.

Ltac by_cases d H :=
  destruct (prototype_cases d H) as [-> | [-> | [-> | [-> | [-> | [-> | ->]]]]]].

(** C1: the header declares exactly seven symbols, the seven entry points
    (bundle path, bundle file path, screen size, target, log message,
    patch folder, pick a folder), each of them once, all of them
    functions, and declares nothing else. *)
Theorem header_declares_exactly_seven :
  length entry_points = 7 /\
  (forall s, In s (declared_symbols libuwp) <-> In s entry_points) /\
  Forall (fun s => count_occ string_dec (declared_symbols libuwp) s = 1)
         entry_points /\
  map d_name (functions libuwp) = entry_points /\
  objects libuwp = [] /\ others libuwp = [].
Proof.
  split; [reflexivity |].
  split; [rewrite libuwp_symbols; tauto |].
  split.
  - rewrite libuwp_symbols. unfold entry_points.
    repeat (constructor; [vm_compute; reflexivity |]). constructor.
  - split; [rewrite libuwp_functions; reflexivity | exact libuwp_objects].
Qed.

(** C2, as the specification words it, fails: the table's first symbol,
    GetBundlePath, is the name of no declaration of the header. *)
Lemma table_symbol_is_not_declared :
  In "GetBundlePath" spec_symbol_table /\
  ~ (exists d, In d (functions libuwp) /\ d_name d = "GetBundlePath").
Proof.
  split.
  - left. reflexivity.
  - intros [d [Hd Hn]]. by_cases d Hd; discriminate Hn.
Qed.

(** C2, amended: the seven declared symbols are the symbols of the
    specification's table, in the table's order, each with the prefix
    uwp_ in front of it. *)
Theorem declared_names_are_prefixed_table :
  map d_name (functions libuwp) =
  map (String.append "uwp_") spec_symbol_table.
Proof. rewrite libuwp_functions. reflexivity. Qed.

(** C3: no declaration has a way to report an error: each of the seven
    returns void, nothing (such as an exception specification) stands
    between its parameter list and its semicolon, and the header declares
    no object through which a status could be read. *)
Theorem no_error_channel_declared :
  length (functions libuwp) = 7 /\
  Forall (fun d => d_ret d = void_t /\ d_after d = []) (functions libuwp) /\
  objects libuwp = [].
Proof.
  rewrite libuwp_functions. split; [reflexivity |]. split.
  - unfold prototypes. repeat constructor.
  - apply libuwp_objects.
Qed.

(** C4: the screen size query takes exactly two parameters, both of type
    pointer to int and both outputs by their type, and no other
    declaration of the header has a parameter that points to an int. *)
Theorem screen_size_by_two_int_pointers :
  exists d,
    In d (functions libuwp) /\ d_name d = "uwp_GetScreenSize" /\
    map p_type (d_params d) = [int_ptr; int_ptr] /\
    map (fun p => declared_direction (p_type p)) (d_params d) =
      [Output; Output] /\
    forall d' p, In d' (functions libuwp) -> In p (d_params d') ->
                 is_int_pointer (p_type p) = true -> d' = d.
Proof.
  exists GetScreenSize.
  split; [rewrite libuwp_functions; simpl; tauto |].
  do 3 (split; [reflexivity |]).
  - intros d' p Hd Hp Hi.
    by_cases d' Hd; try reflexivity; simpl in Hp;
      repeat (destruct Hp as [<- | Hp]; [discriminate Hi |]);
      contradiction.
Qed.

(** C5: every parameter of every declaration is a char*, a const char* or
    an int*, none is passed by value, and the header declares no data
    object. *)
Theorem parameters_are_buffers_or_int_refs :
  Forall (fun p => (p_type p = char_ptr \/ p_type p = const_char_ptr \/
                    p_type p = int_ptr) /\
                   by_value (p_type p) = false)
         (all_params libuwp) /\
  objects libuwp = [].
Proof.
  split; [| apply libuwp_objects].
  apply Forall_by_test with
    (f := fun p => (ctype_eqb (p_type p) char_ptr ||
                    ctype_eqb (p_type p) const_char_ptr ||
                    ctype_eqb (p_type p) int_ptr) &&
                   negb (by_value (p_type p))).
  - intros p H. apply andb_true_iff in H as [Ht Hv].
    split; [| apply negb_true_iff; exact Hv].
    apply orb_true_iff in Ht as [Ht | Ht];
      [apply orb_true_iff in Ht as [Ht | Ht] |];
      apply ctype_eqb_eq in Ht; auto.
  - vm_compute. reflexivity.
Qed.

Lemma not_mem_not_In (w : string) (l : list string) :
  negb (mem w l) = true -> ~ In w l.
Proof.
  intros H Hin. apply mem_In in Hin. rewrite Hin in H. discriminate H.
Qed.

(** C6: each of the seven declarations carries the dllimport marker and
    ends at its semicolon without a body; apart from them the header
    holds its include line only, and its text has no brace and no keyword
    of control flow or of a data structure definition. *)
Theorem declarations_are_imported_prototypes :
  length (functions libuwp) = 7 /\
  Forall (fun d => d_linkage d = Some "dllimport" /\ d_body d = None)
         (functions libuwp) /\
  filter (fun it => negb (is_function it)) libuwp = [Include "stdlib.h"] /\
  count_char "{" libuwp_h = 0 /\ count_char "}" libuwp_h = 0 /\
  Forall (fun w => ~ In w logic_keywords) (words (lex libuwp_h)).
Proof.
  split; [rewrite libuwp_functions; reflexivity |].
  split; [rewrite libuwp_functions; unfold prototypes; repeat constructor |].
  split; [rewrite libuwp_reading; reflexivity |].
  split; [vm_compute; reflexivity |].
  split; [vm_compute; reflexivity |].
  apply Forall_by_test with (f := fun w => negb (mem w logic_keywords)).
  - intros w. apply not_mem_not_In.
  - vm_compute. reflexivity.
Qed.

(** C7: exactly one declaration has parameters of both directions, the
    bundle file path lookup: an output character buffer first, then the
    name of the file, an input the caller passes as the parameter
    filename. *)
Theorem only_bundle_file_path_mixes_directions :
  exists d,
    filter mixed_directions (functions libuwp) = [d] /\
    d_name d = "uwp_GetBundleFilePath" /\
    map (fun p => (p_name p, p_type p, declared_direction (p_type p)))
        (d_params d) =
    [("buffer", char_ptr, Output); ("filename", const_char_ptr, Input)].
Proof.
  exists GetBundleFilePath. rewrite libuwp_functions.
  split; [| split]; reflexivity.
Qed.

(** C8: the header is eight lines long: the include directive, then seven
    lines that each hold one function declaration, and nothing else. *)
Theorem header_is_eight_lines :
  length (lines libuwp_h) = 8 /\
  exists ds,
    map parse_line (lines libuwp_h) = Include "stdlib.h" :: map Function ds /\
    length ds = 7.
Proof.
  split.
  - vm_compute. reflexivity.
  - exists prototypes. split; [vm_compute; reflexivity | reflexivity].
Qed.

(** C9: a parameter of the header is const-qualified exactly when it is
    the filename of the bundle file path lookup; the parameters of the
    logging call and of the folder patch are plain char*, and so is every
    other character buffer, whichever way its data flows. *)
Theorem only_filename_is_const (d : decl) (p : param) :
  In d (functions libuwp) -> In p (d_params d) ->
  (const_qualified (p_type p) = true <->
   d_name d = "uwp_GetBundleFilePath" /\ p_name p = "filename") /\
  (d_name d = "uwp_LogMessage" \/ d_name d = "uwp_PatchFolder" ->
   p_type p = char_ptr) /\
  (base_of (p_type p) = Tchar -> p_name p <> "filename" ->
   p_type p = char_ptr).
Proof.
  intros Hd Hp.
  by_cases d Hd; simpl in Hp;
    repeat (destruct Hp as [<- | Hp]); try contradiction; simpl;
    (split; [split; [intros H; try discriminate H; auto
                    | intros [Hn Hf]; try discriminate Hn; try discriminate Hf;
                      auto]
            | split; [intros [H | H]; try discriminate H; reflexivity
                     | intros Hb Hf; try discriminate Hb; try reflexivity;
                       exfalso; apply Hf; reflexivity]]).
Qed.

(** C9 at the message of the logging call: the declaration LogMessage of
    the header and its parameter buffer meet both hypotheses, and the
    parameter is a plain char*. *)
Lemma only_filename_is_const_at_log_message :
  (const_qualified char_ptr = true <->
   d_name LogMessage = "uwp_GetBundleFilePath" /\ "buffer" = "filename") /\
  (d_name LogMessage = "uwp_LogMessage" \/ d_name LogMessage = "uwp_PatchFolder" ->
   char_ptr = char_ptr) /\
  (base_of char_ptr = Tchar -> "buffer" <> "filename" -> char_ptr = char_ptr).
Proof.
  apply (only_filename_is_const LogMessage (mkParam char_ptr "buffer")).
  - vm_compute. do 4 right. left. reflexivity.
  - simpl. left. reflexivity.
Defined.

(** C10: besides the declarations the header holds the inclusion of
    stdlib.h and nothing more; every return and parameter type is built
    from void, char and int; every word on a declaration line is a
    keyword, the dllimport attribute or a name the line itself declares;
    and none of these words is a name that stdlib.h provides. *)
Theorem declarations_need_nothing_of_stdlib :
  filter (fun it => negb (is_function it)) libuwp = [Include "stdlib.h"] /\
  Forall (fun d => built_in (base_of (d_ret d)) = true /\
                   Forall (fun p => built_in (base_of (p_type p)) = true)
                          (d_params d))
         (functions libuwp) /\
  Forall (fun w => In w ["__declspec"; "dllimport"; "void"; "char"; "int"; "const"] \/
                   In w (declared_symbols libuwp) \/
                   In w (map p_name (all_params libuwp)))
         (declaration_words libuwp_h) /\
  Forall (fun w => ~ In w stdlib_h_names) (declaration_words libuwp_h).
Proof.
  split; [rewrite libuwp_reading; reflexivity |].
  split; [rewrite libuwp_functions; unfold prototypes; repeat constructor |].
  split.
  - apply Forall_by_test with
      (f := fun w => mem w ["__declspec"; "dllimport"; "void"; "char"; "int"; "const"] ||
                     mem w (declared_symbols libuwp) ||
                     mem w (map p_name (all_params libuwp))).
    + intros w H. apply orb_true_iff in H. destruct H as [H | H].
      * apply orb_true_iff in H. destruct H as [H | H].
        -- left. apply mem_In. exact H.
        -- right. left. apply mem_In. exact H.
      * right. right. apply mem_In. exact H.
    + vm_compute. reflexivity.
  - apply Forall_by_test with (f := fun w => negb (mem w stdlib_h_names)).
    + intros w. apply not_mem_not_In.
    + vm_compute. reflexivity.
Qed.

End Interface.

(** ** Repeated inclusion, text shape and well-formedness *)

Module ShapeFacts.

Import Source Lex Ast Parse Header Libuwp Shape ReaderFacts LibuwpFacts.

(** Appending a line feed and more text to a text whose last line is open
    closes that line and adds the lines of the rest. *)
Lemma lines_from_app_LF (a b cur : string) :
  unterminated a = true ->
  lines_from cur (a ++ String LF b) = (lines_from cur a ++ lines b)%list.
Proof.
  revert cur. induction a as [| c a IH]; intros cur H.
  - discriminate H.
  - destruct a as [| c' a'].
    + cbn [unterminated] in H. apply negb_true_iff in H.
      cbn [append lines_from]. rewrite H, Ascii.eqb_refl.
      destruct (cur ++ String c EmptyString) eqn:E.
      * destruct cur; discriminate E.
      * reflexivity.
    + change (unterminated (String c' a') = true) in H.
      change (String c (String c' a') ++ String LF b)
        with (String c (String c' a' ++ String LF b)).
      cbn [lines_from]. destruct (Ascii.eqb c LF).
      * rewrite (IH EmptyString H). reflexivity.
      * apply IH. exact H.
Qed.

Lemma parse_header_app_LF (a b : string) :
  unterminated a = true ->
  parse_header (a ++ String LF b) = (parse_header a ++ parse_header b)%list.
Proof.
  intros H. unfold parse_header, lines.
  rewrite (lines_from_app_LF a b EmptyString H). apply map_app.
Qed.

Lemma lines_from_cons (cur : string) (c : ascii) (s : string) :
  lines_from cur (String c s) =
  if Ascii.eqb c LF then cur :: lines_from EmptyString s
  else lines_from (cur ++ String c EmptyString) s.
Proof. reflexivity. Qed.

(** A text whose last line is open has one line more than line feeds. *)
Lemma lines_from_open_length (s cur : string) :
  unterminated s = true ->
  length (lines_from cur s) = S (count_char LF s).
Proof.
  revert cur. induction s as [| c s IH]; intros cur H.
  - discriminate H.
  - destruct s as [| c' s'].
    + cbn [unterminated] in H. apply negb_true_iff in H.
      cbn [lines_from count_char]. rewrite H.
      destruct (cur ++ String c EmptyString) eqn:E.
      * destruct cur; discriminate E.
      * reflexivity.
    + change (unterminated (String c' s') = true) in H.
      rewrite lines_from_cons.
      change (count_char LF (String c (String c' s')))
        with ((if Ascii.eqb c LF then 1 else 0) + count_char LF (String c' s')).
      destruct (Ascii.eqb c LF).
      * cbn [Datatypes.length]. rewrite (IH EmptyString H). reflexivity.
      * rewrite (IH _ H). reflexivity.
Qed.

Lemma functions_app (h k : list item) :
  functions (h ++ k) = (functions h ++ functions k)%list.
Proof.
  induction h as [| it h IH]; simpl.
  - reflexivity.
  - destruct it; simpl; rewrite IH; reflexivity.
Qed.

(** [n] inclusions read as [n] copies of what one inclusion reads. *)
Lemma parse_header_include_times (h : string) (n : nat) :
  unterminated h = true ->
  parse_header (include_times n h) = concat (repeat (parse_header h) n).
Proof.
  intros H. induction n as [| n IH].
  - reflexivity.
  - cbn [include_times repeat concat].
    rewrite (parse_header_app_LF h _ H), IH. reflexivity.
Qed.

Lemma functions_copies (h : list item) (n : nat) :
  functions (concat (repeat h n)) = concat (repeat (functions h) n).
Proof.
  induction n as [| n IH]; simpl.
  - reflexivity.
  - rewrite functions_app, IH. reflexivity.
Qed.

Lemma in_copies {A : Type} (l : list A) (n : nat) (x : A) :
  In x (concat (repeat l n)) -> In x l.
Proof.
  induction n as [| n IH]; simpl.
  - contradiction.
  - intros H. apply in_app_or in H. destruct H as [H | H]; auto.
Qed.

Lemma length_copies {A : Type} (l : list A) (n : nat) :
  length (concat (repeat l n)) = length l * n.
Proof.
  induction n as [| n IH]; simpl.
  - lia.
  - rewrite length_app, IH. lia.
Qed.

(** In a list of declarations with pairwise distinct names, the name
    determines the declaration. *)
Lemma name_determines_decl (l : list decl) :
  NoDup (map d_name l) ->
  forall d1 d2, In d1 l -> In d2 l -> d_name d1 = d_name d2 -> d1 = d2.
Proof.
  induction l as [| a l IH]; intros Hnd d1 d2 H1 H2 Hn.
  - contradiction.
  - simpl in Hnd. inversion Hnd as [| x xs Hnotin Hrest]; subst.
    destruct H1 as [<- | H1], H2 as [<- | H2].
    + reflexivity.
    + exfalso. apply Hnotin. rewrite Hn. apply in_map. exact H2.
    + exfalso. apply Hnotin. rewrite <- Hn. apply in_map. exact H1.
    + apply IH; assumption.
Qed.

Lemma libuwp_h_unterminated : unterminated libuwp_h = true.
Proof. vm_compute. reflexivity. Qed.

Lemma libuwp_h_reading :
  parse_header libuwp_h = Include "stdlib.h" :: map Function prototypes.
Proof. vm_compute. reflexivity. Qed.

Lemma prototype_names_distinct : NoDup (map d_name prototypes).
Proof.
  unfold prototypes. simpl.
  repeat (constructor;
          [simpl; intros H;
           repeat (destruct H as [H | H]; [discriminate H |]); exact H |]).
  constructor.
Qed.

(** What any number of inclusions in a row declares. *)
Lemma included_functions (n : nat) :
  functions (parse_header (include_times n libuwp_h)) =
  concat (repeat prototypes n).
Proof.
  rewrite (parse_header_include_times libuwp_h n libuwp_h_unterminated).
  rewrite libuwp_h_reading, functions_copies. reflexivity.
Qed.

End ShapeFacts.

(** ** Further properties of the header *)

Module Coverage.

Import Source Lex Ast Parse Header Libuwp Shape.
Import ReaderFacts LibuwpFacts ShapeFacts.

Ltac each_prototype d H :=
  destruct (prototype_cases d H) as [-> | [-> | [-> | [-> | [-> | [-> | ->]]]]]].

(** X1: every declaration of the header takes one or two parameters; it
    takes two exactly when it is the bundle file path lookup or the screen
    size query, and a declaration with a single parameter takes a
    char*. *)
Theorem entry_point_arity (d : decl) :
  In d (functions libuwp) ->
  (length (d_params d) = 1 \/ length (d_params d) = 2) /\
  (length (d_params d) = 2 <->
   d_name d = "uwp_GetBundleFilePath" \/ d_name d = "uwp_GetScreenSize") /\
  (length (d_params d) = 1 -> map p_type (d_params d) = [char_ptr]).
Proof.
  intros Hd.
  each_prototype d Hd; cbn [d_params d_name imported GetBundlePath
    GetBundleFilePath GetScreenSize GetTarget LogMessage PatchFolder
    PickAFolder Datatypes.length map p_type];
    (split; [auto |]);
    (split; [split; [intros H; try discriminate H; auto
                    | intros [H | H]; try discriminate H; reflexivity]
            | intros H; try discriminate H; reflexivity]).
Qed.

(** X1 at the folder picker: one parameter, a char*. *)
Lemma entry_point_arity_at_pick_a_folder :
  (length (d_params PickAFolder) = 1 \/ length (d_params PickAFolder) = 2) /\
  (length (d_params PickAFolder) = 2 <->
   d_name PickAFolder = "uwp_GetBundleFilePath" \/
   d_name PickAFolder = "uwp_GetScreenSize") /\
  (length (d_params PickAFolder) = 1 ->
   map p_type (d_params PickAFolder) = [char_ptr]).
Proof.
  apply (entry_point_arity PickAFolder).
  vm_compute. do 6 right. left. reflexivity.
Defined.

(** X2: the header has no include guard (its include line is its only
    directive), so [n] inclusions in a row declare the seven entry points
    [n] times over; all declarations of one name are then the same
    declaration. *)
Theorem repeated_inclusion_redeclares_identically (n : nat) (d1 d2 : decl) :
  In d1 (functions (parse_header (include_times n libuwp_h))) ->
  In d2 (functions (parse_header (include_times n libuwp_h))) ->
  d_name d1 = d_name d2 ->
  d1 = d2 /\
  length (functions (parse_header (include_times n libuwp_h))) = 7 * n /\
  count_char "#" libuwp_h = 1.
Proof.
  rewrite included_functions. intros H1 H2 Hn.
  split; [| split].
  - apply (name_determines_decl prototypes prototype_names_distinct).
    + exact (in_copies prototypes n d1 H1).
    + exact (in_copies prototypes n d2 H2).
    + exact Hn.
  - rewrite length_copies. reflexivity.
  - vm_compute. reflexivity.
Qed.

(** X2 at two inclusions: the target query read from the first copy and
    the one read from the second copy are the same declaration. *)
Lemma repeated_inclusion_at_two :
  GetTarget = GetTarget /\
  length (functions (parse_header (include_times 2 libuwp_h))) = 7 * 2 /\
  count_char "#" libuwp_h = 1.
Proof.
  apply (repeated_inclusion_redeclares_identically 2 GetTarget GetTarget).
  - vm_compute. do 3 right. left. reflexivity.
  - vm_compute. do 10 right. left. reflexivity.
  - reflexivity.
Defined.

(** X3: the text of the header is printable ASCII with line feeds as its
    only line ends (no carriage return); its last line has no line feed,
    so that it has one line more than it has line feeds; and none of its
    lines is empty. *)
Theorem header_text_shape :
  Forall (fun c => plain_char c = true) (list_ascii_of_string libuwp_h) /\
  count_char "013" libuwp_h = 0 /\
  unterminated libuwp_h = true /\
  length (lines libuwp_h) = S (count_char LF libuwp_h) /\
  Forall (fun l => l <> EmptyString) (lines libuwp_h).
Proof.
  split.
  { apply Forall_forall. intros c Hc.
    assert (A : forallb plain_char (list_ascii_of_string libuwp_h) = true)
      by (vm_compute; reflexivity).
    rewrite forallb_forall in A. apply A. exact Hc. }
  split; [vm_compute; reflexivity |].
  split; [exact libuwp_h_unterminated |].
  split.
  - unfold lines. apply lines_from_open_length. exact libuwp_h_unterminated.
  - assert (A : forallb (fun l => negb (String.eqb l EmptyString))
                        (lines libuwp_h) = true)
      by (vm_compute; reflexivity).
    apply Forall_forall. intros l Hl E.
    rewrite forallb_forall in A. specialize (A l Hl).
    rewrite E in A. discriminate A.
Qed.

(** X4: no declaration passes a size or capacity along with a character
    buffer: in a declaration that has a parameter of character data,
    every parameter is a pointer to character data. *)
Theorem buffers_come_without_capacity (d : decl) :
  In d (functions libuwp) ->
  has_char_buffer d = true ->
  Forall (fun p => base_of (p_type p) = Tchar /\ by_value (p_type p) = false)
         (d_params d).
Proof.
  intros Hd Hb.
  each_prototype d Hd; try discriminate Hb;
    repeat (constructor; [split; reflexivity |]); constructor.
Qed.

(** X4 at the bundle file path lookup: its buffer and its file name are
    both pointers to characters. *)
Lemma buffers_come_without_capacity_at_bundle_file_path :
  Forall (fun p => base_of (p_type p) = Tchar /\ by_value (p_type p) = false)
         (d_params GetBundleFilePath).
Proof.
  apply (buffers_come_without_capacity GetBundleFilePath).
  - vm_compute. right. left. reflexivity.
  - vm_compute. reflexivity.
Defined.

(** X5: the names the header declares are well formed: every function
    name and every parameter name is a C identifier and no keyword, and
    the parameter names of one declaration are pairwise distinct. *)
Theorem declared_names_are_wellformed :
  Forall (fun d =>
            is_identifier (d_name d) = true /\
            ~ In (d_name d) c_keywords /\
            Forall (fun p => is_identifier (p_name p) = true /\
                             ~ In (p_name p) c_keywords)
                   (d_params d) /\
            NoDup (map p_name (d_params d)))
         (functions libuwp).
Proof.
  assert (K : forall w, negb (mem w c_keywords) = true -> ~ In w c_keywords).
  { intros w H Hin. apply mem_In in Hin. rewrite Hin in H. discriminate H. }
  assert (A : forallb (fun d =>
             is_identifier (d_name d) && negb (mem (d_name d) c_keywords) &&
             forallb (fun p => is_identifier (p_name p) &&
                               negb (mem (p_name p) c_keywords))
                     (d_params d))
           (functions libuwp) = true) by (vm_compute; reflexivity).
  rewrite forallb_forall in A.
  apply Forall_forall. intros d Hd. specialize (A d Hd).
  apply andb_true_iff in A as [A Hp]. apply andb_true_iff in A as [Hi Hk].
  split; [exact Hi |]. split; [exact (K _ Hk) |]. split.
  - apply Forall_forall. intros p Hin.
    rewrite forallb_forall in Hp. specialize (Hp p Hin).
    apply andb_true_iff in Hp as [Hpi Hpk].
    split; [exact Hpi | exact (K _ Hpk)].
  - each_prototype d Hd; simpl;
      repeat (constructor;
              [simpl; intros H;
               repeat (destruct H as [H | H]; [discriminate H |]); exact H |]);
      constructor.
Qed.

End Coverage.
